(** * Account service: the route handlers of [service/routes.py]

    The handlers are embedded as computations in a state-and-exception
    monad over the account table.  A Python handler either returns a
    response, falls off its end (returning [None]), or raises: [abort]
    raises an HTTP exception, the model's [deserialize] raises a
    validation error. *)

From Stdlib Require Import ZArith Lia Ascii String.
From stdpp Require Import base option list gmap strings.

Local Open Scope Z_scope.
Local Open Scope string_scope.

(** ** JSON data *)

(** The values carried by the fields of an account document. *)
Inductive JVal : Type :=
| JNull
| JNum (n : Z)
| JStr (s : string).

#[global] Instance JVal_eq_dec : EqDecision JVal.
Proof. solve_decision. Defined.

(** A JSON object, the [dict] that [request.get_json()] and
    [Account.serialize] produce. *)
Abbreviation Dict := (gmap string JVal).

Definition jnum (o : option Z) : JVal :=
  match o with Some n => JNum n | None => JNull end.

Definition jstr (o : option string) : JVal :=
  match o with Some s => JStr s | None => JNull end.

(** Python truthiness of a value: [None], zero and the empty string are
    false. *)
Definition truthy_value (v : JVal) : bool :=
  match v with
  | JNull => false
  | JNum n => negb (bool_decide (n = 0))
  | JStr s => negb (bool_decide (s = ""))
  end.

(** ** Strings of the HTTP layer *)

Definition lower_char (c : ascii) : ascii :=
  let n := nat_of_ascii c in
  if ((65 <=? n) && (n <=? 90))%nat then ascii_of_nat (n + 32) else c.

Fixpoint lower (s : string) : string :=
  match s with
  | EmptyString => EmptyString
  | String c s' => String (lower_char c) (lower s')
  end.

(** The part of a header value before its parameters. *)
Fixpoint until_semicolon (s : string) : string :=
  match s with
  | EmptyString => EmptyString
  | String c s' => if Ascii.eqb c ";"%char then EmptyString
                   else String c (until_semicolon s')
  end.

Fixpoint lstrip (s : string) : string :=
  match s with
  | String c s' => if Ascii.eqb c " "%char then lstrip s' else s
  | EmptyString => EmptyString
  end.

Definition strip (s : string) : string :=
  String.rev (lstrip (String.rev (lstrip s))).

Definition endswith (s suffix : string) : bool :=
  String.prefix (String.rev suffix) (String.rev s).

(** ** Calendar dates *)

Definition digit (c : ascii) : option nat :=
  let n := nat_of_ascii c in
  if ((48 <=? n) && (n <=? 57))%nat then Some (n - 48)%nat else None.

Definition number (cs : list ascii) : option nat :=
  foldl (λ acc c, a ← acc; d ← digit c; Some (10 * a + d)%nat) (Some 0%nat) cs.

Definition leap_year (y : nat) : bool :=
  ((y mod 4 =? 0) && (negb (y mod 100 =? 0) || (y mod 400 =? 0)))%nat.

Definition days_in_month (y m : nat) : nat :=
  match m with
  | 2 => if leap_year y then 29 else 28
  | 4 | 6 | 9 | 11 => 30
  | _ => 31
  end%nat.

(** The text YYYY-MM-DD of a calendar date, which is what [str] and
    [isoformat] give for a date and what [date.fromisoformat] reads back
    to the same date. *)
Definition iso_date (s : string) : bool :=
  match s with
  | String y1 (String y2 (String y3 (String y4 (String sep1
      (String m1 (String m2 (String sep2 (String d1 (String d2
        EmptyString))))))))) =>
      Ascii.eqb sep1 "-"%char && Ascii.eqb sep2 "-"%char &&
      match number [y1; y2; y3; y4], number [m1; m2], number [d1; d2] with
      | Some y, Some m, Some d =>
          ((1 <=? y) && (1 <=? m) && (m <=? 12) &&
           (1 <=? d) && (d <=? days_in_month y m))%nat
      | _, _, _ => false
      end
  | _ => false
  end.

(** ** HTTP status codes *)

(** Modelled from the spec: [service/common/status.py] is not among the
    sources; the codes are those of the interface table. *)
Module status.
Definition HTTP_200_OK : Z := 200.
Definition HTTP_201_CREATED : Z := 201.
Definition HTTP_204_NO_CONTENT : Z := 204.
Definition HTTP_400_BAD_REQUEST : Z := 400.
Definition HTTP_404_NOT_FOUND : Z := 404.
Definition HTTP_415_UNSUPPORTED_MEDIA_TYPE : Z := 415.
Definition HTTP_500_INTERNAL_SERVER_ERROR : Z := 500.
End status.

(** ** Requests and responses *)

(** What a handler reads of [flask.request]: the header table and the
    JSON object its body holds, [None] when it holds none. *)
Record Request : Type := mkRequest {
  headers : gmap string string;
  payload : option Dict
}.

(** [request.mimetype]: the content type without its parameters, in lower
    case; empty without the header. *)
Definition mimetype (req : Request) : string :=
  match headers req !! "Content-Type" with
  | Some content_type => lower (strip (until_semicolon content_type))
  | None => ""
  end.

(** [request.is_json]: the mimetype is application/json or
    application/*+json. *)
Definition is_json (req : Request) : bool :=
  let mt := mimetype req in
  bool_decide (mt = "application/json") ||
  (String.prefix "application/" mt && endswith mt "+json").

(** [request.get_json()]: Flask reads the body only when the mimetype of
    the request indicates JSON.  [None] is a request that yields no JSON
    object; the service answers it with 400, whether Flask aborts in
    [get_json] or hands [None] on to [deserialize]. *)
Definition get_json (req : Request) : option Dict :=
  if is_json req then payload req else None.

Inductive Body : Type :=
| JsonObject (d : Dict)
| JsonArray (l : list Dict)
| Text (s : string).

Record Response : Type := make_response {
  data : Body;
  status_code : Z;
  response_headers : list (string * string)
}.

(** ** Exceptions *)

(** [HTTPException] is what [abort(code, description)] raises.
    [DataValidationError] is raised by [Account.deserialize]; it names the
    offending field, or nothing when the body itself is not an object. *)
Inductive Exn : Type :=
| HTTPException (code : Z) (description : option string)
| DataValidationError (field : option string).

(** ** The handler monad: state passing with exceptions *)

Definition M (S A : Type) : Type := S → S * (Exn + A).

#[global] Instance M_ret {S} : MRet (M S) := λ A a s, (s, inr a).

#[global] Instance M_bind {S} : MBind (M S) := λ A B k m s,
  match m s with
  | (s', inr a) => k a s'
  | (s', inl e) => (s', inl e)
  end.

Definition raise {S A} (e : Exn) : M S A := λ s, (s, inl e).

(** A pure computation that may raise. *)
Definition lift {S A} (r : Exn + A) : M S A := λ s, (s, r).

(** [flask.abort] *)
Definition abort {S A} (code : Z) (description : option string) : M S A :=
  raise (HTTPException code description).

(** ** The account model *)

Module Account.

(** Modelled from the spec: the [Account] class of [service/models.py],
    which is not among the sources.  One object of the class, with the six
    attributes of the data model.  Python attributes are untyped: the four
    fields a body supplies hold the JSON value given, [None] while unset.
    A date is held as its ISO text. *)
Record t : Type := mk {
  id : option Z;
  name : JVal;
  email : JVal;
  address : JVal;
  phone_number : JVal;
  date_joined : option string
}.

(** [Account()] *)
Definition new : t := mk None JNull JNull JNull JNull None.

(** Modelled from the spec: [Account.serialize] of [service/models.py],
    which is not among the sources.  The serialized account has the six
    attributes of the data model under the keys the tests read, the date
    as its ISO text (the tests compare it with [str] of a date). *)
Definition serialize (a : t) : Dict :=
  <["id" := jnum (id a)]>
  (<["name" := name a]>
  (<["email" := email a]>
  (<["address" := address a]>
  (<["phone_number" := phone_number a]>
  (<["date_joined" := jstr (date_joined a)]> ∅))))).

(** Attribute assignments, [self.name = value] and the like: computations
    on the object. *)
Definition set_name (v : JVal) : M t unit :=
  λ a, (mk (id a) v (email a) (address a) (phone_number a) (date_joined a),
        inr ()).

Definition set_email (v : JVal) : M t unit :=
  λ a, (mk (id a) (name a) v (address a) (phone_number a) (date_joined a),
        inr ()).

Definition set_address (v : JVal) : M t unit :=
  λ a, (mk (id a) (name a) (email a) v (phone_number a) (date_joined a),
        inr ()).

Definition set_phone_number (v : JVal) : M t unit :=
  λ a, (mk (id a) (name a) (email a) (address a) v (date_joined a), inr ()).

Definition set_date_joined (d : string) : M t unit :=
  λ a, (mk (id a) (name a) (email a) (address a) (phone_number a) (Some d),
        inr ()).

(** [data[key]]: a missing key and data that is no object are validation
    errors. *)
Definition item (data : option Dict) (key : string) : Exn + JVal :=
  match data with
  | None => inl (DataValidationError None)
  | Some d =>
      match d !! key with
      | Some v => inr v
      | None => inl (DataValidationError (Some key))
      end
  end.

(** [data.get(key)]: [None] for a missing key. *)
Definition get (data : option Dict) (key : string) : JVal :=
  match data with
  | Some d => default JNull (d !! key)
  | None => JNull
  end.

(** [date.fromisoformat] of a body's value.  A value that is no string is
    a type error, which is a validation error.  A string is taken to be
    the ISO text of a date; the properties below speak of bodies whose
    date is one ([iso_date]). *)
Definition fromisoformat (v : JVal) : Exn + string :=
  match v with
  | JStr s => inr s
  | _ => inl (DataValidationError (Some "date_joined"))
  end.

(** Modelled from the spec: [Account.deserialize] of
    [service/models.py], which is not among the sources.  It parses the
    body into the account, assigning the attributes one after the other,
    and fails with a validation error when the body is no object or when
    name, email or address is missing; the phone number is optional.  The
    spec calls date_joined server-assigned, but the tests of the
    repository post a serialized account and expect its date_joined back
    (test_create_account, test_read_an_account, test_update_account): the
    date is the body's when it carries one, and the server's date
    otherwise.  The identifier is not assigned. *)
Definition deserialize (today : string) (data : option Dict) : M t unit :=
  v ← lift (item data "name"); set_name v;;
  v ← lift (item data "email"); set_email v;;
  v ← lift (item data "address"); set_address v;;
  set_phone_number (get data "phone_number");;
  let date_joined := get data "date_joined" in
  if truthy_value date_joined
  then d ← lift (fromisoformat date_joined); set_date_joined d
  else set_date_joined today.

(** Modelled from the spec: the relational table behind the store, its
    rows in insertion order, with the next value of the sequence that
    assigns identifiers (the tests connect to PostgreSQL, where the key
    of a new row is drawn from a sequence).  Of the numbering the
    properties below use only that the next identifier is not in the
    table. *)
Record table : Type := mk_table {
  rows : list t;
  next_id : Z
}.

Definition has_id (i : Z) (a : t) : bool :=
  bool_decide (id a = Some i).

(** Modelled from the spec: [Account.find(by_id)] of
    [service/models.py], which is not among the sources.  Find-by-id
    returns the single entity of that identifier, or its absence. *)
Definition find (by_id : Z) : M table (option t) :=
  λ s, (s, inr (List.find (has_id by_id) (rows s))).

(** Modelled from the spec: [Account.all()] of [service/models.py],
    which is not among the sources.  List-all returns the full sequence
    in insertion order. *)
Definition all : M table (list t) :=
  λ s, (s, inr (rows s)).

(** Modelled from the spec: [account.create()] of [service/models.py],
    which is not among the sources.  The store assigns the identifier and
    persists the row with the attributes the object has; the object then
    carries the identifier. *)
Definition create (a : t) : M table t :=
  λ s,
    let a' := mk (Some (next_id s)) (name a) (email a) (address a)
                (phone_number a) (date_joined a) in
    (mk_table (rows s ++ [a']) (next_id s + 1), inr a').

(** Modelled from the spec: [account.delete()] of [service/models.py],
    which is not among the sources.  Removes the row of this
    identifier. *)
Definition delete (a : t) : M table unit :=
  λ s,
    (mk_table (List.filter (λ r, negb (bool_decide (id r = id a))) (rows s))
              (next_id s),
     inr tt).

(** A method call on an object that is not in the table, such as a fresh
    [Account()]: the table is not concerned, and the object is dropped
    when the call raises. *)
Definition transient {A} (a : t) (m : M t A) : M table t :=
  λ s, match m a with
       | (a', inr _) => (s, inr a')
       | (_, inl e) => (s, inl e)
       end.

(** The row of an identifier overwritten with the object [a']. *)
Fixpoint write_row (a' : t) (l : list t) : list t :=
  match l with
  | [] => []
  | r :: l' => if bool_decide (id r = id a') then a' :: l'
               else r :: write_row a' l'
  end.

(** A method call on an object that [find] returned.  That object is the
    one the table holds for the identifier, not a copy: what the call
    assigns is what every later [find] and [all] return, also when the
    call raises after some assignments. *)
Definition persistent {A} (a : t) (m : M t A) : M table t :=
  λ s, match m a with
       | (a', inr _) => (mk_table (write_row a' (rows s)) (next_id s), inr a')
       | (a', inl e) => (mk_table (write_row a' (rows s)) (next_id s), inl e)
       end.

End Account.

(** The store of the service is the account table. *)
Abbreviation Store := Account.table.

Definition empty_store : Store := Account.mk_table [] 1.


(** ** The route handlers *)

(** A handler is a computation over the store that yields what the Python
    function returns: a response, or [None] when the function ends without
    a [return].  The identifier in the path is taken as the primary-key
    value it denotes.  The server's date is an argument of the handlers
    that reach the clock, through [account.deserialize()]. *)

(** [jsonify] of a dictionary and of a list of dictionaries. *)
Definition jsonify (d : Dict) : Body := JsonObject d.
Definition jsonify_list (l : list Dict) : Body := JsonArray l.

(** Python truthiness of [request.headers.get(...)]: [None] and the empty
    string are false. *)
Definition truthy (o : option string) : bool :=
  match o with
  | None => false
  | Some s => negb (bool_decide (s = ""))
  end.

(** Checks that the media type is correct. *)
Definition check_content_type (req : Request) (media_type : string) : M Store unit :=
  let content_type := headers req !! "Content-Type" in
  if truthy content_type && bool_decide (content_type = Some media_type)
  then mret tt
  else abort status.HTTP_415_UNSUPPORTED_MEDIA_TYPE
             (Some ("Content-Type must be " +:+ media_type)).

(** POST /accounts *)
Definition create_accounts (today : string) (req : Request) : M Store (option Response) :=
  check_content_type req "application/json";;
  let account := Account.new in
  account ← Account.transient account
              (Account.deserialize today (get_json req));
  account ← Account.create account;
  let message := Account.serialize account in
  let location_url := "/" in
  mret (Some (make_response (jsonify message) status.HTTP_201_CREATED
                [("Location", location_url)])).

(** GET /accounts *)
Definition list_accounts : M Store (option Response) :=
  accounts ← Account.all;
  if (length accounts =? 0)%nat
  then mret (Some (make_response (jsonify_list []) status.HTTP_200_OK []))
  else
    let serialized_accounts := Account.serialize <$> accounts in
    mret (Some (make_response (jsonify_list serialized_accounts)
                  status.HTTP_200_OK [])).

(** GET /accounts/<id> *)
Definition read_account (id : Z) : M Store (option Response) :=
  account ← Account.find id;
  match account with
  | Some account =>
      let message := Account.serialize account in
      mret (Some (make_response (jsonify message) status.HTTP_200_OK []))
  | None => abort status.HTTP_404_NOT_FOUND None
  end.

(** PUT /accounts/<account_id>.  [deserialize] is called on the account
    that [find] returned, so it assigns to the account of the table; the
    handler does not call [account.update()]. *)
Definition update_account (today : string) (account_id : Z) (req : Request)
  : M Store (option Response) :=
  account ← Account.find account_id;
  match account with
  | Some account =>
      account ← Account.persistent account
                  (Account.deserialize today (get_json req));
      mret (Some (make_response (jsonify (Account.serialize account))
                    status.HTTP_200_OK []))
  | None => abort status.HTTP_404_NOT_FOUND None
  end.

(** DELETE /accounts/<account_id>.  The [return] is inside the [if]: with
    no account found the function ends without one and yields [None]. *)
Definition delete_account (account_id : Z) : M Store (option Response) :=
  account ← Account.find account_id;
  match account with
  | Some account =>
      Account.delete account;;
      mret (Some (make_response (Text "") status.HTTP_204_NO_CONTENT []))
  | None => mret None
  end.

(** ** What the client sees *)

(** Modelled from the spec: the error handlers of the service, which are
    not among the sources.  Errors surface at the router boundary as
    status codes: an [abort] with its own code, a validation error
    with 400. *)
Definition error_status (e : Exn) : Z :=
  match e with
  | HTTPException code _ => code
  | DataValidationError _ => status.HTTP_400_BAD_REQUEST
  end.

(** The status of the HTTP reply.  A returned response carries its own.  A
    view that returns [None] has produced no response, which Flask answers
    with an internal server error. *)
Definition http_status {A} (r : A * (Exn + option Response)) : Z :=
  match r.2 with
  | inr (Some resp) => status_code resp
  | inr None => status.HTTP_500_INTERNAL_SERVER_ERROR
  | inl e => error_status e
  end.

Definition body_of (r : Store * (Exn + option Response)) : option Body :=
  match r.2 with
  | inr (Some resp) => Some (data resp)
  | _ => None
  end.

(** ** Requests in sequence *)

(** The operations of the service, and the store after a sequence of
    them from a given store. *)
Inductive Op : Type :=
| Create (today : string) (req : Request)
| List
| Read (id : Z)
| Update (today : string) (account_id : Z) (req : Request)
| Delete (account_id : Z).

Definition handle (o : Op) : M Store (option Response) :=
  match o with
  | Create today req => create_accounts today req
  | List => list_accounts
  | Read id => read_account id
  | Update today account_id req => update_account today account_id req
  | Delete account_id => delete_account account_id
  end.

Definition run (ops : list Op) (s : Store) : Store :=
  foldl (λ s o, (handle o s).1) s ops.

(** The creations of a list of dated requests, one after the other. *)
Definition create_all (posts : list (string * Request)) : list Op :=
  (λ p, Create p.1 p.2) <$> posts.

(** ** Predicates on stores and payloads *)

(** An account with identifier [i] is in the table. *)
Definition present (i : Z) (s : Store) : Prop :=
  ∃ a, a ∈ Account.rows s ∧ Account.id a = Some i.

(** The identifier of a row was issued by the sequence. *)
Definition issued (bound : Z) (a : Account.t) : Prop :=
  match Account.id a with
  | Some i => i < bound
  | None => False
  end.

#[global] Instance issued_dec bound a : Decision (issued bound a).
Proof. unfold issued. destruct (Account.id a); apply _. Defined.

(** The primary-key discipline of the table: identifiers are pairwise
    distinct and all below the next one to be issued. *)
Definition wf_store (s : Store) : Prop :=
  Forall (issued (Account.next_id s)) (Account.rows s) ∧
  NoDup (Account.id <$> Account.rows s).

#[global] Instance wf_store_dec s : Decision (wf_store s).
Proof. unfold wf_store. apply _. Defined.

(** A required field: present, a string or null. *)
Definition is_text (o : option JVal) : bool :=
  match o with
  | Some (JStr _) | Some JNull => true
  | _ => false
  end.

(** An optional field: absent, null or a string. *)
Definition str_or_null (o : option JVal) : bool :=
  match o with
  | Some (JNum _) => false
  | _ => true
  end.

(** An optional date: absent, null, empty or the ISO text of a date. *)
Definition date_or_none (o : option JVal) : bool :=
  match o with
  | None | Some JNull => true
  | Some (JStr s) => bool_decide (s = "") || iso_date s
  | Some (JNum _) => false
  end.

(** A payload of the data model: name, email and address present,
    phone_number optional, date_joined an optional date, the values
    strings or null.  Such a payload passes [deserialize], and its values
    are stored and returned as they are. *)
Definition valid_payload (d : Dict) : bool :=
  is_text (d !! "name") && is_text (d !! "email") &&
  is_text (d !! "address") && str_or_null (d !! "phone_number") &&
  date_or_none (d !! "date_joined").

(** The phone number a payload carries, null when it has none. *)
Definition payload_phone (d : Dict) : JVal :=
  default JNull (d !! "phone_number").

(** The join date a payload leads to: its own when it carries one, the
    server's otherwise. *)
Definition payload_date (today : string) (d : Dict) : string :=
  match d !! "date_joined" with
  | Some (JStr s) => if bool_decide (s = "") then today else s
  | _ => today
  end.

(** The account [a] with its attributes assigned from a valid payload. *)
Definition assigned (today : string) (d : Dict) (a : Account.t) : Account.t :=
  Account.mk (Account.id a)
    (default JNull (d !! "name")) (default JNull (d !! "email"))
    (default JNull (d !! "address")) (payload_phone d)
    (Some (payload_date today d)).

(** A request that [create_accounts] accepts. *)
Definition acceptable (req : Request) : bool :=
  bool_decide (headers req !! "Content-Type" = Some "application/json") &&
  match get_json req with
  | Some d => valid_payload d
  | None => false
  end.

(** ** Sample data *)

(** A request whose Content-Type is the expected media type. *)
Definition json_request (d : Dict) : Request :=
  mkRequest {["Content-Type" := "application/json"]} (Some d).



(** The payload of the spec's scenario, and another one. *)
Definition sam : Dict :=
  <["name" := JStr "Sam"]> (<["email" := JStr "sam@x.com"]>
  (<["address" := JStr "1 Rd"]> (<["phone_number" := JStr "555-0100"]> ∅))).

Definition bob : Dict :=
  <["name" := JStr "Bob"]> (<["email" := JStr "bob@y.org"]>
  (<["address" := JStr "2 Ave"]> ∅)).

(** A serialized account as the tests post it, with its own join date. *)
Definition bob_2008 : Dict := <["date_joined" := JStr "2008-01-01"]> bob.

(** The test suite's payload with not enough data. *)
Definition not_enough : Dict := {["name" := JStr "not enough data"]}.

(** The store after Sam's account has been created in an empty store. *)
Definition sam_store : Store :=
  run [Create "2024-01-01" (json_request sam)] empty_store.

Definition sam_row : Account.t :=
  Account.mk (Some 1) (JStr "Sam") (JStr "sam@x.com") (JStr "1 Rd")
    (JStr "555-0100") (Some "2024-01-01").

(** The row of an account created first, or Sam's row updated, from
    [bob_2008]. *)
Definition bob_2008_row : Account.t :=
  Account.mk (Some 1) (JStr "Bob") (JStr "bob@y.org") (JStr "2 Ave")
    JNull (Some "2008-01-01").

(** ** The endpoints that do not touch the store *)

(** GET /health: the health status. *)
Definition health : M Store (option Response) :=
  mret (Some (make_response (jsonify {["status" := JStr "OK"]})
                status.HTTP_200_OK [])).

(** GET /: the root URL response. *)
Definition index : M Store (option Response) :=
  mret (Some (make_response
                (jsonify (<["name" := JStr "Account REST API Service"]>
                          (<["version" := JStr "1.0"]> ∅)))
                status.HTTP_200_OK [])).

(** The routes registered for the GET method. *)
Inductive Get : Type :=
| GetHealth
| GetIndex
| GetAccounts
| GetAccount (id : Z).

Definition handle_get (g : Get) : M Store (option Response) :=
  match g with
  | GetHealth => health
  | GetIndex => index
  | GetAccounts => list_accounts
  | GetAccount id => read_account id
  end.

(** ** Further sample data *)

(** The store after Sam's and then Bob's account have been created. *)
Definition sam_bob_store : Store :=
  run (create_all [("2024-01-01", json_request sam);
                   ("2024-01-02", json_request bob)]) empty_store.

Definition bob_row : Account.t :=
  Account.mk (Some 2) (JStr "Bob") (JStr "bob@y.org") (JStr "2 Ave")
    JNull (Some "2024-01-02").

(** * Properties *)

(** Unfolds the monadic plumbing of a handler applied to a store. *)
Ltac run_handler :=
  unfold handle, create_accounts, list_accounts, read_account, update_account,
    delete_account, check_content_type, abort, raise, lift,
    Account.find, Account.all, Account.create, Account.delete,
    Account.transient, Account.persistent,
    mbind, M_bind, mret, M_ret;
  simpl.

(** ** Looking rows up *)

Section Lookup.

Implicit Types (i : Z) (a : Account.t) (l : list Account.t).

Lemma has_id_true i a : Account.has_id i a = true ↔ Account.id a = Some i.
Proof. unfold Account.has_id. by rewrite bool_decide_eq_true. Qed.

Lemma find_Some_elem i a l :
  List.find (Account.has_id i) l = Some a → a ∈ l ∧ Account.id a = Some i.
Proof.
  induction l as [|b l IH]; simpl; [done|].
  destruct (Account.has_id i b) eqn:Hb.
  - intros [= ->]. split; [left | by apply has_id_true].
  - intros H. destruct (IH H) as [Hin Hid]. split; [by right | done].
Qed.

Lemma find_None_elem i l :
  List.find (Account.has_id i) l = None ↔
  ∀ a, a ∈ l → Account.id a ≠ Some i.
Proof.
  induction l as [|b l IH]; simpl.
  - split; [|done]. intros _ a Ha. by apply elem_of_nil in Ha.
  - destruct (Account.has_id i b) eqn:Hb.
    + split; [done|]. intros H. exfalso.
      apply (H b); [left | by apply has_id_true].
    + rewrite IH. split.
      * intros H a [->|Ha]%elem_of_cons; [|by apply H].
        intros Hid%has_id_true. congruence.
      * intros H a Ha. apply H. by right.
Qed.

Lemma find_present i (s : Store) :
  is_Some (List.find (Account.has_id i) (Account.rows s)) ↔ present i s.
Proof.
  split.
  - intros [a Ha]. exists a. by apply find_Some_elem.
  - intros (a & Hin & Hid).
    destruct (List.find _ _) eqn:Hf; [by eexists|].
    exfalso. by eapply find_None_elem.
Qed.

Lemma find_absent i (s : Store) :
  List.find (Account.has_id i) (Account.rows s) = None ↔ ¬ present i s.
Proof.
  rewrite <- find_present, eq_None_not_Some. done.
Qed.

(** The row appended with a fresh identifier is the one found. *)
Lemma find_app_fresh i a l :
  Account.id a = Some i →
  (∀ b, b ∈ l → Account.id b ≠ Some i) →
  List.find (Account.has_id i) (l ++ [a]) = Some a.
Proof.
  intros Hid. induction l as [|b l IH]; simpl; intros Hfresh.
  - by rewrite (proj2 (has_id_true i a) Hid).
  - destruct (Account.has_id i b) eqn:Hb.
    + apply has_id_true in Hb. exfalso. apply (Hfresh b); [left | done].
    + apply IH. intros c Hc. apply Hfresh. by right.
Qed.

(** No row of a deleted identifier remains. *)
Lemma find_filter_deleted i a l :
  Account.id a = Some i →
  List.find (Account.has_id i)
    (List.filter (λ r, negb (bool_decide (Account.id r = Account.id a))) l)
  = None.
Proof.
  intros Hid. apply find_None_elem. intros b Hb Hbi.
  apply list_elem_of_In, filter_In in Hb as [_ Hb].
  apply negb_true_iff, bool_decide_eq_false in Hb. congruence.
Qed.

Lemma issued_fresh bound l b :
  Forall (issued bound) l → b ∈ l → Account.id b ≠ Some bound.
Proof.
  intros Hall Hb Hid. rewrite Forall_forall in Hall.
  specialize (Hall b Hb). unfold issued in Hall. rewrite Hid in Hall. lia.
Qed.

End Lookup.

(** ** Writing a row in place *)

Section WriteRow.

Implicit Types (i j : Z) (a : Account.t) (l : list Account.t).

Lemma write_row_ids a' l :
  Account.id <$> Account.write_row a' l = Account.id <$> l.
Proof.
  induction l as [|r l IH]; simpl; [done|].
  case_bool_decide as Hr; simpl; [by rewrite Hr | by f_equal].
Qed.

(** The row written is the row found afterwards. *)
Lemma find_write_row_same i a a' l :
  List.find (Account.has_id i) l = Some a → Account.id a' = Some i →
  List.find (Account.has_id i) (Account.write_row a' l) = Some a'.
Proof.
  intros Hf Hid. induction l as [|r l IH]; simpl in *; [done|].
  destruct (Account.has_id i r) eqn:Hr.
  - apply has_id_true in Hr. rewrite bool_decide_eq_true_2 by congruence.
    simpl. by rewrite (proj2 (has_id_true i a') Hid).
  - assert (Account.id r ≠ Account.id a') as Hne.
    { intros Heq. rewrite Hid in Heq. apply has_id_true in Heq. congruence. }
    rewrite bool_decide_eq_false_2 by done. simpl. rewrite Hr. by apply IH.
Qed.

End WriteRow.

(** ** The serialized account *)

Section Serialize.

Variable a : Account.t.

Lemma serialize_id :
  Account.serialize a !! "id" = Some (jnum (Account.id a)).
Proof. done. Qed.

Lemma serialize_name :
  Account.serialize a !! "name" = Some (Account.name a).
Proof. done. Qed.

Lemma serialize_email :
  Account.serialize a !! "email" = Some (Account.email a).
Proof. done. Qed.

Lemma serialize_address :
  Account.serialize a !! "address" = Some (Account.address a).
Proof. done. Qed.

Lemma serialize_phone_number :
  Account.serialize a !! "phone_number" = Some (Account.phone_number a).
Proof. done. Qed.

Lemma serialize_date_joined :
  Account.serialize a !! "date_joined" = Some (jstr (Account.date_joined a)).
Proof. done. Qed.

End Serialize.

(** ** Validation *)

Section Deserialize.

Implicit Types (a : Account.t) (d : Dict) (data : option Dict).

Ltac run_deserialize :=
  unfold Account.deserialize, Account.item, Account.get,
    Account.fromisoformat, Account.set_name, Account.set_email,
    Account.set_address, Account.set_phone_number, Account.set_date_joined,
    lift, mbind, M_bind; simpl.

(** [deserialize] does not assign the identifier. *)
Lemma deserialize_id (today : string) data a :
  Account.id (Account.deserialize today data a).1 = Account.id a.
Proof.
  run_deserialize. destruct data as [d|]; [|done].
  destruct (d !! "name"); [|done]. simpl.
  destruct (d !! "email"); [|done]. simpl.
  destruct (d !! "address"); [|done]. simpl.
  destruct (truthy_value _); [|done].
  by destruct (default JNull (d !! "date_joined")).
Qed.

(** A valid payload is parsed into the account: the four fields come
    from the payload, and so does the date when the payload has one. *)
Lemma deserialize_valid (today : string) d a :
  valid_payload d = true →
  Account.deserialize today (Some d) a = (assigned today d a, inr ()).
Proof.
  unfold valid_payload, assigned, payload_phone, payload_date.
  intros H. repeat apply andb_prop in H as [H ?]. run_deserialize.
  destruct (d !! "name") as [vn|]; [|done]. simpl.
  destruct (d !! "email") as [ve|]; [|done]. simpl.
  destruct (d !! "address") as [va|]; [|done]. simpl.
  destruct (d !! "date_joined") as [[|n|s]|]; simpl; try done.
  by case_bool_decide.
Qed.

Lemma assigned_fields (today : string) d a :
  valid_payload d = true →
  Account.id (assigned today d a) = Account.id a ∧
  Some (Account.name (assigned today d a)) = d !! "name" ∧
  Some (Account.email (assigned today d a)) = d !! "email" ∧
  Some (Account.address (assigned today d a)) = d !! "address" ∧
  Account.phone_number (assigned today d a) = payload_phone d ∧
  Account.date_joined (assigned today d a) = Some (payload_date today d).
Proof.
  unfold valid_payload, assigned. simpl.
  intros H. repeat apply andb_prop in H as [H ?].
  destruct (d !! "name"); [|done].
  destruct (d !! "email"); [|done].
  by destruct (d !! "address").
Qed.

(** [deserialize] raises nothing but validation errors. *)
Lemma deserialize_raises (today : string) data a e :
  (Account.deserialize today data a).2 = inl e →
  ∃ field, e = DataValidationError field.
Proof.
  run_deserialize. destruct data as [d|]; [|intros [= <-]; by eexists].
  destruct (d !! "name"); [|intros [= <-]; by eexists]. simpl.
  destruct (d !! "email"); [|intros [= <-]; by eexists]. simpl.
  destruct (d !! "address"); [|intros [= <-]; by eexists]. simpl.
  destruct (truthy_value _); [|done].
  destruct (default JNull (d !! "date_joined")); simpl; try done;
    intros [= <-]; by eexists.
Qed.

End Deserialize.

(** ** The content-type check *)

Lemma truthy_media_type (o : option string) :
  o = Some "application/json" →
  truthy o && bool_decide (o = Some "application/json") = true.
Proof. by intros ->. Qed.

Lemma check_content_type_pass (req : Request) (s : Store) :
  headers req !! "Content-Type" = Some "application/json" →
  check_content_type req "application/json" s = (s, inr ()).
Proof.
  intros H. unfold check_content_type. by rewrite (truthy_media_type _ H).
Qed.

Lemma check_content_type_abort (req : Request) (s : Store) :
  headers req !! "Content-Type" ≠ Some "application/json" →
  check_content_type req "application/json" s
  = (s, inl (HTTPException status.HTTP_415_UNSUPPORTED_MEDIA_TYPE
               (Some "Content-Type must be application/json"))).
Proof.
  intros H. unfold check_content_type.
  rewrite (bool_decide_eq_false_2 _ H), andb_false_r. done.
Qed.

(** ** Frames of the handlers *)

Lemma list_accounts_store (s : Store) : (list_accounts s).1 = s.
Proof. run_handler. by destruct (_ =? _)%nat. Qed.

Lemma read_account_store (i : Z) (s : Store) : (read_account i s).1 = s.
Proof. run_handler. by destruct (List.find _ _). Qed.

(** What [update_account] does with an account it finds: the attributes
    that [deserialize] assigns are written to the row, and the answer is
    the account so written, or the error [deserialize] raised. *)
Lemma update_account_found
    (today : string) (i : Z) (req : Request) (s : Store) (a : Account.t) :
  List.find (Account.has_id i) (Account.rows s) = Some a →
  update_account today i req s
  = (Account.mk_table
       (Account.write_row (Account.deserialize today (get_json req) a).1
          (Account.rows s))
       (Account.next_id s),
     match (Account.deserialize today (get_json req) a).2 with
     | inl e => inl e
     | inr _ =>
         inr (Some (make_response
                      (jsonify (Account.serialize
                                  (Account.deserialize today (get_json req) a).1))
                      status.HTTP_200_OK []))
     end).
Proof.
  intros Hf. run_handler. rewrite Hf.
  by destruct (Account.deserialize today (get_json req) a) as [a' [e|[]]].
Qed.

Lemma update_account_rows (today : string) (i : Z) (req : Request) (s : Store) :
  Account.id <$> Account.rows (update_account today i req s).1
  = Account.id <$> Account.rows s ∧
  Account.next_id (update_account today i req s).1 = Account.next_id s.
Proof.
  destruct (List.find (Account.has_id i) (Account.rows s)) as [a|] eqn:Hf.
  - rewrite (update_account_found _ _ _ _ _ Hf). simpl.
    by rewrite write_row_ids.
  - run_handler. by rewrite Hf.
Qed.

Lemma delete_account_rows (i : Z) (s : Store) :
  Account.rows (delete_account i s).1
  = List.filter (λ r, negb (Account.has_id i r)) (Account.rows s) ∧
  Account.next_id (delete_account i s).1 = Account.next_id s.
Proof.
  run_handler. destruct (List.find _ _) as [a|] eqn:Hf; simpl.
  - apply find_Some_elem in Hf as [_ Hid]. rewrite Hid. done.
  - split; [|done]. symmetry. apply forallb_filter_id, forallb_forall.
    intros b Hb%list_elem_of_In. apply negb_true_iff.
    destruct (Account.has_id i b) eqn:Hb'; [|done].
    apply has_id_true in Hb'. exfalso.
    by eapply (proj1 (find_None_elem i (Account.rows s))).
Qed.

(** The row that [create_accounts] appends for the account [a]. *)
Lemma create_accounts_outcome (today : string) (req : Request) (s : Store) :
  (∃ e, create_accounts today req s = (s, inl e) ∧
        (e = HTTPException status.HTTP_415_UNSUPPORTED_MEDIA_TYPE
               (Some "Content-Type must be application/json") ∧
         headers req !! "Content-Type" ≠ Some "application/json"
         ∨
         headers req !! "Content-Type" = Some "application/json" ∧
         ∃ field, e = DataValidationError field))
  ∨
  (headers req !! "Content-Type" = Some "application/json" ∧
   ∃ a, (Account.deserialize today (get_json req) Account.new).2 = inr () ∧
        a = (Account.deserialize today (get_json req) Account.new).1 ∧
        let a' := Account.mk (Some (Account.next_id s)) (Account.name a)
                    (Account.email a) (Account.address a)
                    (Account.phone_number a) (Account.date_joined a) in
        create_accounts today req s
        = (Account.mk_table (Account.rows s ++ [a']) (Account.next_id s + 1),
           inr (Some (make_response (jsonify (Account.serialize a'))
                        status.HTTP_201_CREATED [("Location", "/")])))).
Proof.
  unfold create_accounts, mbind, M_bind.
  destruct (decide (headers req !! "Content-Type" = Some "application/json"))
    as [Hct|Hct].
  - rewrite check_content_type_pass by done. unfold Account.transient.
    destruct (Account.deserialize today (get_json req) Account.new)
      as [a [e|[]]] eqn:Hdes.
    + left. exists e. split; [done|]. right. split; [done|].
      apply (deserialize_raises today (get_json req) Account.new).
      by rewrite Hdes.
    + right. split; [done|]. by exists a.
  - rewrite check_content_type_abort by done.
    left. eexists. split; [done|]. by left.
Qed.

Lemma create_accounts_accepted (today : string) (req : Request) (s : Store) :
  acceptable req = true →
  ∃ d, get_json req = Some d ∧ valid_payload d = true ∧
       let a := assigned today d Account.new in
       let a' := Account.mk (Some (Account.next_id s)) (Account.name a)
                   (Account.email a) (Account.address a)
                   (Account.phone_number a) (Account.date_joined a) in
       create_accounts today req s
       = (Account.mk_table (Account.rows s ++ [a']) (Account.next_id s + 1),
          inr (Some (make_response (jsonify (Account.serialize a'))
                       status.HTTP_201_CREATED [("Location", "/")]))).
Proof.
  unfold acceptable. intros [Hct Hbody]%andb_prop.
  apply bool_decide_eq_true in Hct.
  destruct (get_json req) as [d|] eqn:Hd; [|done].
  exists d. split; [done|]. split; [done|].
  unfold create_accounts, mbind, M_bind.
  rewrite check_content_type_pass by done.
  unfold Account.transient. rewrite Hd, (deserialize_valid _ _ _ Hbody). done.
Qed.

(** ** The primary-key invariant *)

Section Invariant.

Implicit Types (s : Store) (o : Op).

Lemma wf_empty_store : wf_store empty_store.
Proof. split; [constructor | apply NoDup_nil_2]. Qed.

Lemma issued_mono (bound bound' : Z) (a : Account.t) :
  (bound ≤ bound')%Z → issued bound a → issued bound' a.
Proof. unfold issued. destruct (Account.id a); [lia | done]. Qed.

Lemma wf_filter (f : Account.t → bool) s :
  wf_store s →
  wf_store (Account.mk_table (List.filter f (Account.rows s)) (Account.next_id s)).
Proof.
  destruct s as [l n]. unfold wf_store. simpl. intros [Hall Hnd]. split.
  - apply Forall_forall. intros a [Ha _]%list_elem_of_In%filter_In.
    rewrite Forall_forall in Hall. by apply Hall, list_elem_of_In.
  - clear Hall. induction l as [|b l IH]; simpl; [constructor|].
    apply NoDup_cons in Hnd as [Hb Hnd].
    destruct (f b); simpl; [|by apply IH].
    apply NoDup_cons. split; [|by apply IH].
    intros (c & Hc & [Hin _]%list_elem_of_In%filter_In)%list_elem_of_fmap.
    apply Hb, list_elem_of_fmap. exists c. by rewrite list_elem_of_In.
Qed.

Lemma wf_append s (a : Account.t) :
  wf_store s → Account.id a = Some (Account.next_id s) →
  wf_store (Account.mk_table (Account.rows s ++ [a]) (Account.next_id s + 1)).
Proof.
  destruct s as [l n]. unfold wf_store. simpl. intros [Hall Hnd] Hid. split.
  - apply Forall_app. split.
    + eapply Forall_impl; [done|]. intros b. apply issued_mono. lia.
    + repeat constructor. unfold issued. rewrite Hid. lia.
  - rewrite fmap_app. apply NoDup_app. split; [done|]. split.
    + intros x (b & -> & Hb)%list_elem_of_fmap Hx. simpl in Hx.
      apply list_elem_of_singleton in Hx. rewrite Hid in Hx.
      by eapply issued_fresh.
    + simpl. apply NoDup_singleton.
Qed.

(** Whether identifiers are issued depends on the identifiers only. *)
Lemma issued_ids (bound : Z) (l l' : list Account.t) :
  Account.id <$> l' = Account.id <$> l →
  Forall (issued bound) l → Forall (issued bound) l'.
Proof.
  revert l'. induction l as [|a l IH]; intros [|a' l'] Hids Hall;
    try done; simpl in Hids.
  injection Hids as Hid Hids. apply Forall_cons in Hall as [Ha Hl].
  constructor; [|by apply IH]. unfold issued in *. by rewrite Hid.
Qed.

(** Every handler keeps the invariant. *)
Lemma wf_handle o s : wf_store s → wf_store (handle o s).1.
Proof.
  intros Hwf. destruct o as [today req| |i|today i req|i]; simpl.
  - destruct (create_accounts_outcome today req s)
      as [(e & -> & _)|(_ & a & _ & _ & ->)]; [done|].
    simpl. by apply wf_append.
  - by rewrite list_accounts_store.
  - by rewrite read_account_store.
  - destruct (update_account_rows today i req s) as [Hids Hnext].
    destruct Hwf as [Hall Hnd]. split.
    + rewrite Hnext. by eapply issued_ids.
    + by rewrite Hids.
  - destruct (delete_account_rows i s) as [Hrows Hnext].
    destruct (delete_account i s).1 as [l n]. simpl in *. subst.
    by apply wf_filter.
Qed.

(** Hence it holds in every store the service can reach. *)
Lemma wf_run (ops : list Op) s : wf_store s → wf_store (run ops s).
Proof.
  revert s. induction ops as [|o ops IH]; intros s Hwf; [done|].
  apply IH. by apply wf_handle.
Qed.

Lemma wf_reachable (ops : list Op) : wf_store (run ops empty_store).
Proof. apply wf_run, wf_empty_store. Qed.

End Invariant.

(** ** Reading *)

(** C6.  For every identifier, [read_account] leaves the store as it was;
    it returns the serialized account of that identifier with status 200
    exactly when such an account is in the store, and aborts with 404
    exactly when none is. *)
Theorem read_account_found_iff_present (i : Z) (s : Store) :
  (read_account i s).1 = s ∧
  (present i s ↔
     ∃ a, a ∈ Account.rows s ∧ Account.id a = Some i ∧
          (read_account i s).2
          = inr (Some (make_response (jsonify (Account.serialize a))
                         status.HTTP_200_OK []))) ∧
  (present i s ↔ http_status (read_account i s) = 200) ∧
  (¬ present i s ↔
     (read_account i s).2 = inl (HTTPException status.HTTP_404_NOT_FOUND None)) ∧
  (¬ present i s ↔ http_status (read_account i s) = 404).
Proof.
  split; [apply read_account_store|].
  unfold http_status. run_handler.
  destruct (List.find _ _) as [a|] eqn:Hf; simpl.
  - assert (present i s) as Hp by (apply find_present; by eexists).
    apply find_Some_elem in Hf as [Hin Hid].
    repeat split; try done; try (intros; by exists a).
  - apply find_absent in Hf.
    repeat split; try done. by intros (a & _ & _ & ?).
Qed.

(** ** Deleting *)

Lemma delete_account_absent (i : Z) (s : Store) :
  ¬ present i s → delete_account i s = (s, inr None).
Proof.
  intros Hp%find_absent. run_handler. by rewrite Hp.
Qed.

Lemma delete_account_present (i : Z) (s : Store) :
  present i s →
  ∃ s', delete_account i s
        = (s', inr (Some (make_response (Text "") status.HTTP_204_NO_CONTENT [])))
        ∧ List.find (Account.has_id i) (Account.rows s') = None.
Proof.
  intros [a Ha]%find_present. run_handler. rewrite Ha. simpl.
  eexists. split; [done|]. simpl.
  apply find_filter_deleted. by apply find_Some_elem in Ha as [_ ?].
Qed.

(** C1, at an identifier that is not in the store: [delete_account]
    leaves the store as it was, but it returns no response at all (the
    function ends without a [return]), which is answered with status 500
    and not with 204. *)
Theorem delete_account_absent_returns_none :
  ¬ present 7 empty_store ∧
  delete_account 7 empty_store = (empty_store, inr None) ∧
  http_status (delete_account 7 empty_store) = 500 ∧
  http_status (delete_account 7 empty_store) ≠ status.HTTP_204_NO_CONTENT.
Proof.
  split; [|done]. intros (a & Ha & _). by apply elem_of_nil in Ha.
Qed.

(** C8.  For every identifier present in the store, [delete_account]
    returns 204 with an empty body and removes the account, and a
    [read_account] of that identifier on the resulting store aborts with
    404. *)
Theorem delete_then_read_not_found (i : Z) (s : Store) :
  present i s →
  ∃ s',
    delete_account i s
    = (s', inr (Some (make_response (Text "") status.HTTP_204_NO_CONTENT []))) ∧
    ¬ present i s' ∧
    read_account i s'
    = (s', inl (HTTPException status.HTTP_404_NOT_FOUND None)) ∧
    http_status (read_account i s') = 404.
Proof.
  intros Hp. destruct (delete_account_present i s Hp) as (s' & Hdel & Hnone).
  exists s'. split; [done|]. split; [by apply find_absent|].
  unfold http_status. run_handler. by rewrite Hnone.
Qed.

Lemma sam_present : present 1 sam_store.
Proof. exists sam_row. split; [left | done]. Qed.

Lemma delete_then_read_not_found_witness :
  present 1 sam_store ∧
  ∃ s',
    delete_account 1 sam_store
    = (s', inr (Some (make_response (Text "") status.HTTP_204_NO_CONTENT []))) ∧
    ¬ present 1 s' ∧
    read_account 1 s'
    = (s', inl (HTTPException status.HTTP_404_NOT_FOUND None)) ∧
    http_status (read_account 1 s') = 404.
Proof.
  split; [exact sam_present|].
  apply (delete_then_read_not_found 1 sam_store). exact sam_present.
Defined.

(** ** Creating *)

(** C4, amended.  For every valid payload posted with the expected media
    type to a well-formed store, [create_accounts] answers 201 with an
    identifier that was not in the store, and [read_account] of that
    identifier then answers 200 with a record whose name, email, address
    and phone_number are those of the payload and whose identifier is the
    one returned; its date_joined is the payload's when the payload
    carries one, and the server's date otherwise. *)
Theorem create_then_read (today : string) (req : Request) (d : Dict) (s : Store) :
  wf_store s →
  headers req !! "Content-Type" = Some "application/json" →
  get_json req = Some d →
  valid_payload d = true →
  ∃ (s' : Store) (created : Dict) (i : Z) (b : Dict),
    create_accounts today req s
    = (s', inr (Some (make_response (jsonify created) status.HTTP_201_CREATED
                        [("Location", "/")]))) ∧
    created !! "id" = Some (JNum i) ∧
    ¬ present i s ∧
    read_account i s'
    = (s', inr (Some (make_response (jsonify b) status.HTTP_200_OK []))) ∧
    b !! "name" = d !! "name" ∧
    b !! "email" = d !! "email" ∧
    b !! "address" = d !! "address" ∧
    b !! "phone_number" = Some (payload_phone d) ∧
    b !! "date_joined" = Some (JStr (payload_date today d)) ∧
    b !! "id" = Some (JNum i).
Proof.
  intros [Hall _] Hct Hd Hvalid.
  assert (acceptable req = true) as Hacc.
  { unfold acceptable. by rewrite (bool_decide_eq_true_2 _ Hct), Hd. }
  destruct (create_accounts_accepted today req s Hacc)
    as (d' & Hd' & _ & Hcreate).
  rewrite Hd in Hd'. injection Hd' as <-.
  destruct (assigned_fields today d Account.new Hvalid)
    as (_ & Hn & He & Had & Hp & Hdate).
  simpl in Hcreate. rewrite Hcreate.
  set (a' := Account.mk _ _ _ _ _ _).
  exists (Account.mk_table (Account.rows s ++ [a']) (Account.next_id s + 1)),
    (Account.serialize a'), (Account.next_id s), (Account.serialize a').
  split; [done|]. split; [done|]. split.
  { intros (b & Hb & Hid). by eapply issued_fresh. }
  split.
  { run_handler. rewrite (find_app_fresh (Account.next_id s) a'); [done..|].
    intros b Hb. by eapply issued_fresh. }
  rewrite serialize_name, serialize_email, serialize_address,
    serialize_phone_number, serialize_date_joined. simpl.
  by rewrite <- Hn, <- He, <- Had.
Qed.

Lemma create_then_read_witness :
  ∃ (s' : Store) (created : Dict) (i : Z) (b : Dict),
    create_accounts "2024-01-01" (json_request sam) empty_store
    = (s', inr (Some (make_response (jsonify created) status.HTTP_201_CREATED
                        [("Location", "/")]))) ∧
    created !! "id" = Some (JNum i) ∧
    ¬ present i empty_store ∧
    read_account i s'
    = (s', inr (Some (make_response (jsonify b) status.HTTP_200_OK []))) ∧
    b !! "name" = sam !! "name" ∧
    b !! "email" = sam !! "email" ∧
    b !! "address" = sam !! "address" ∧
    b !! "phone_number" = Some (payload_phone sam) ∧
    b !! "date_joined" = Some (JStr (payload_date "2024-01-01" sam)) ∧
    b !! "id" = Some (JNum i).
Proof.
  apply (create_then_read "2024-01-01" (json_request sam) sam empty_store).
  - apply (bool_decide_unpack (wf_store empty_store)). vm_compute. exact I.
  - reflexivity.
  - reflexivity.
  - reflexivity.
Defined.

(** C4 as stated fails for a payload that carries a date_joined, as the
    serialized accounts that the tests post do: created on 2024-01-01 with
    the join date 2008-01-01, the account is read back with the payload's
    date, not with one the server assigned. *)
Lemma create_then_read_counterexample :
  valid_payload bob_2008 = true ∧
  http_status (create_accounts "2024-01-01" (json_request bob_2008) empty_store)
  = 201 ∧
  (∃ created,
     body_of (create_accounts "2024-01-01" (json_request bob_2008) empty_store)
     = Some (jsonify created) ∧ created !! "id" = Some (JNum 1)) ∧
  (∃ b,
     read_account 1
       (create_accounts "2024-01-01" (json_request bob_2008) empty_store).1
     = ((create_accounts "2024-01-01" (json_request bob_2008) empty_store).1,
        inr (Some (make_response (jsonify b) status.HTTP_200_OK []))) ∧
     b !! "date_joined" = Some (JStr "2008-01-01") ∧
     b !! "date_joined" ≠ Some (JStr "2024-01-01")).
Proof.
  split; [reflexivity|]. split; [reflexivity|]. split.
  - exists (Account.serialize bob_2008_row). split; reflexivity.
  - exists (Account.serialize bob_2008_row). split; [reflexivity|].
    split; [reflexivity | discriminate].
Qed.

(** C9.  Whenever [create_accounts] fails it does so with 415 or with 400,
    and the store after the request is the store before it. *)
Theorem create_accounts_failure_keeps_store
    (today : string) (req : Request) (s : Store) (e : Exn) :
  (create_accounts today req s).2 = inl e →
  (create_accounts today req s).1 = s ∧
  (http_status (create_accounts today req s)
     = status.HTTP_415_UNSUPPORTED_MEDIA_TYPE ∧
   headers req !! "Content-Type" ≠ Some "application/json"
   ∨
   http_status (create_accounts today req s) = status.HTTP_400_BAD_REQUEST ∧
   ∃ field, e = DataValidationError field).
Proof.
  intros He.
  destruct (create_accounts_outcome today req s)
    as [(e' & Hc & Hcases)|(_ & a & _ & _ & Hc)];
    simpl in Hc; rewrite Hc in He |- *; [|done].
  injection He as ->. split; [done|]. unfold http_status. simpl.
  destruct Hcases as [[-> Hct]|[_ [field ->]]]; [by left|].
  right. by eauto.
Qed.

Lemma create_accounts_failure_keeps_store_witness :
  (create_accounts "2024-01-01" (json_request not_enough) sam_store).1
  = sam_store ∧
  (http_status (create_accounts "2024-01-01" (json_request not_enough) sam_store)
     = status.HTTP_415_UNSUPPORTED_MEDIA_TYPE ∧
   headers (json_request not_enough) !! "Content-Type"
     ≠ Some "application/json"
   ∨
   http_status (create_accounts "2024-01-01" (json_request not_enough) sam_store)
     = status.HTTP_400_BAD_REQUEST ∧
   ∃ field, DataValidationError (Some "email") = DataValidationError field).
Proof.
  apply (create_accounts_failure_keeps_store "2024-01-01"
           (json_request not_enough) sam_store
           (DataValidationError (Some "email"))).
  reflexivity.
Defined.

(** ** Listing *)

Lemma list_accounts_all (s : Store) :
  list_accounts s
  = (s, inr (Some (make_response
                     (jsonify_list (Account.serialize <$> Account.rows s))
                     status.HTTP_200_OK []))).
Proof.
  run_handler. destruct (Account.rows s) as [|a l] eqn:Hrows; simpl; done.
Qed.

Lemma rows_after_create_all (posts : list (string * Request)) (s : Store) :
  forallb (λ p, acceptable p.2) posts = true →
  length (Account.rows (run (create_all posts) s))
  = (length (Account.rows s) + length posts)%nat.
Proof.
  revert s. induction posts as [|[today req] posts IH]; intros s Hacc; simpl.
  - lia.
  - simpl in Hacc. apply andb_prop in Hacc as [Hreq Hposts].
    unfold run, create_all in *. simpl. rewrite IH by done.
    destruct (create_accounts_accepted today req s Hreq) as (d & _ & _ & ->).
    simpl. rewrite length_app. simpl. lia.
Qed.

(** C7.  In every store [list_accounts] answers 200 with the serialized
    rows of the table, all of them, in order, and leaves the store as it
    was; in the empty store the answer is the empty sequence; after N
    accepted creations the answer has N entries more than before, hence
    exactly N when starting from the empty store. *)
Theorem list_accounts_exactly_persisted
    (posts : list (string * Request)) (s : Store) :
  forallb (λ p, acceptable p.2) posts = true →
  list_accounts s
  = (s, inr (Some (make_response
                     (jsonify_list (Account.serialize <$> Account.rows s))
                     status.HTTP_200_OK []))) ∧
  list_accounts empty_store
  = (empty_store,
     inr (Some (make_response (jsonify_list []) status.HTTP_200_OK []))) ∧
  (∃ entries,
     body_of (list_accounts (run (create_all posts) s))
     = Some (jsonify_list entries) ∧
     http_status (list_accounts (run (create_all posts) s)) = 200 ∧
     length entries = (length (Account.rows s) + length posts)%nat) ∧
  (∃ entries,
     body_of (list_accounts (run (create_all posts) empty_store))
     = Some (jsonify_list entries) ∧
     http_status (list_accounts (run (create_all posts) empty_store)) = 200 ∧
     length entries = length posts).
Proof.
  intros Hacc. split; [apply list_accounts_all|]. split; [done|].
  split; eexists; rewrite list_accounts_all;
    (split; [reflexivity|]); (split; [reflexivity|]);
    rewrite length_fmap, rows_after_create_all by done; done.
Qed.

Lemma list_accounts_exactly_persisted_witness :
  ∃ entries,
    body_of (list_accounts
               (run (create_all [("2024-01-01", json_request sam);
                                 ("2024-01-02", json_request bob)])
                  empty_store))
    = Some (jsonify_list entries) ∧
    length entries = 2%nat.
Proof.
  destruct (list_accounts_exactly_persisted
              [("2024-01-01", json_request sam);
               ("2024-01-02", json_request bob)] empty_store)
    as (_ & _ & _ & entries & Hbody & _ & Hlen).
  - reflexivity.
  - exists entries. split; [exact Hbody | exact Hlen].
Defined.

(** ** The content-type check *)

(** C10.  [check_content_type] lets a request pass exactly when it has a
    Content-Type header and that header is the string application/json;
    otherwise it aborts with 415, so [create_accounts] answers 415 for a
    request without the header and for one whose media type carries a
    parameter. *)
Theorem check_content_type_exact (today : string) (req : Request) (s : Store) :
  (check_content_type req "application/json" s = (s, inr ()) ↔
   headers req !! "Content-Type" = Some "application/json") ∧
  (headers req !! "Content-Type" ≠ Some "application/json" ↔
   check_content_type req "application/json" s
   = (s, inl (HTTPException status.HTTP_415_UNSUPPORTED_MEDIA_TYPE
                (Some "Content-Type must be application/json")))) ∧
  (headers req !! "Content-Type" ≠ Some "application/json" ↔
   http_status (create_accounts today req s) = 415) ∧
  (∀ body, http_status (create_accounts today (mkRequest ∅ body) s) = 415) ∧
  (∀ body,
     http_status
       (create_accounts today
          (mkRequest {["Content-Type" := "application/json; charset=utf-8"]} body)
          s) = 415).
Proof.
  assert (∀ r : Request,
            headers r !! "Content-Type" ≠ Some "application/json" →
            http_status (create_accounts today r s) = 415) as H415.
  { intros r Hr. unfold http_status, create_accounts, mbind, M_bind.
    by rewrite check_content_type_abort. }
  destruct (decide (headers req !! "Content-Type" = Some "application/json"))
    as [Hct|Hct].
  - rewrite check_content_type_pass by done.
    repeat split; try done. intros H415'. exfalso. revert H415'.
    destruct (create_accounts_outcome today req s)
      as [(e & -> & [[_ ?]|[_ [f ->]]])|(_ & a & _ & _ & ->)]; done.
  - rewrite check_content_type_abort by done.
    repeat split; try done; intros; by apply H415.
Qed.



(** ** Updating *)

Lemma present_ids (j : Z) (s : Store) :
  present j s ↔ Some j ∈ Account.id <$> Account.rows s.
Proof.
  rewrite list_elem_of_fmap. split.
  - intros (a & Ha & Hid). by exists a.
  - intros (a & Hid & Ha). by exists a.
Qed.

(** Identifiers enter the store by creation only: an identifier that is
    in the store after a request was there before it, unless the request
    was a creation. *)
Lemma present_after_handle (o : Op) (s : Store) (j : Z) :
  present j (handle o s).1 →
  present j s ∨ ∃ today req, o = Create today req.
Proof.
  destruct o as [today req| |i|today i req|i]; simpl.
  - intros _. right. by eauto.
  - rewrite list_accounts_store. by left.
  - rewrite read_account_store. by left.
  - rewrite !present_ids.
    destruct (update_account_rows today i req s) as [-> _]. by left.
  - intros (a & Ha & Hid). left. exists a. split; [|done].
    destruct (delete_account_rows i s) as [Hrows _]. rewrite Hrows in Ha.
    apply list_elem_of_In, filter_In in Ha as [Ha _].
    by apply list_elem_of_In.
Qed.

(** C3 as stated fails in Sam's store, where Sam joined on 2024-01-01.
    After a successful update from a body that carries the join date
    2008-01-01, the account of the identifier has that date, in the
    answer and in the store; after one from a body without a date it has
    the date of the update. *)
Lemma update_changes_date_joined_counterexample :
  Account.find 1 sam_store = (sam_store, inr (Some sam_row)) ∧
  Account.date_joined sam_row = Some "2024-01-01" ∧
  update_account "2024-06-01" 1 (json_request bob_2008) sam_store
  = (Account.mk_table [bob_2008_row] 2,
     inr (Some (make_response (jsonify (Account.serialize bob_2008_row))
                  status.HTTP_200_OK []))) ∧
  Account.date_joined bob_2008_row = Some "2008-01-01" ∧
  Account.serialize bob_2008_row !! "date_joined" = Some (JStr "2008-01-01") ∧
  (∃ a', Account.find 1
           (update_account "2024-06-01" 1 (json_request bob) sam_store).1
         = ((update_account "2024-06-01" 1 (json_request bob) sam_store).1,
            inr (Some a')) ∧
         Account.date_joined a' = Some "2024-06-01").
Proof.
  repeat (split; [reflexivity|]).
  exists (Account.mk (Some 1) (JStr "Bob") (JStr "bob@y.org") (JStr "2 Ave")
            JNull (Some "2024-06-01")).
  split; reflexivity.
Qed.

(** C3, amended.  After any successful [update_account], whatever the
    body, the account of that identifier is in the store with the
    identifier it had before, which the returned account carries too, and
    the identifiers of the table are what they were; identifiers enter
    the store by creation only.  The date_joined is the one of the body
    when the body carries one, and the server's date otherwise. *)
Theorem update_keeps_identifier
    (today : string) (i : Z) (req : Request) (s s' : Store)
    (a : Account.t) (r : Response) :
  Account.find i s = (s, inr (Some a)) →
  update_account today i req s = (s', inr (Some r)) →
  (∃ a', Account.find i s' = (s', inr (Some a')) ∧
         Account.id a' = Account.id a ∧
         data r = jsonify (Account.serialize a') ∧
         Account.serialize a' !! "id" = Some (JNum i) ∧
         (∀ d, get_json req = Some d → valid_payload d = true →
               Account.date_joined a' = Some (payload_date today d))) ∧
  Account.id <$> Account.rows s' = Account.id <$> Account.rows s ∧
  (∀ (o : Op) (t : Store) (j : Z),
     present j (handle o t).1 →
     present j t ∨ ∃ today' req', o = Create today' req').
Proof.
  intros Hfind Hupd. unfold Account.find in Hfind. injection Hfind as Hf.
  split; [|split; [|apply present_after_handle]].
  - rewrite (update_account_found _ _ _ _ _ Hf) in Hupd.
    pose proof (deserialize_id today (get_json req) a) as Hid.
    destruct (Account.deserialize today (get_json req) a) as [a' [e|[]]] eqn:Hdes;
      simpl in *; [done|].
    injection Hupd as <- <-.
    pose proof (find_Some_elem _ _ _ Hf) as [_ Hi].
    exists a'. unfold Account.find. simpl.
    rewrite (find_write_row_same i a a') by congruence.
    split; [done|]. split; [done|]. split; [done|].
    split; [by rewrite serialize_id, Hid, Hi|].
    intros d Hd Hvalid. rewrite Hd, (deserialize_valid _ _ _ Hvalid) in Hdes.
    injection Hdes as <-.
    by destruct (assigned_fields today d a Hvalid) as (_ & _ & _ & _ & _ & ?).
  - pose proof (update_account_rows today i req s) as [Hids _].
    by rewrite Hupd in Hids.
Qed.

Lemma update_keeps_identifier_witness :
  (∃ a', Account.find 1 (Account.mk_table [bob_2008_row] 2)
         = (Account.mk_table [bob_2008_row] 2, inr (Some a')) ∧
         Account.id a' = Account.id sam_row ∧
         Account.serialize a' !! "id" = Some (JNum 1) ∧
         Account.date_joined a' = Some (payload_date "2024-06-01" bob_2008)) ∧
  Account.id <$> [bob_2008_row] = Account.id <$> Account.rows sam_store.
Proof.
  destruct (update_keeps_identifier "2024-06-01" 1 (json_request bob_2008)
              sam_store (Account.mk_table [bob_2008_row] 2) sam_row
              (make_response (jsonify (Account.serialize bob_2008_row))
                 status.HTTP_200_OK []))
    as ((a' & Hfind & Hid & _ & Hser & Hdate) & Hids & _).
  - reflexivity.
  - reflexivity.
  - split; [|exact Hids]. exists a'.
    split; [exact Hfind|]. split; [exact Hid|]. split; [exact Hser|].
    apply (Hdate bob_2008); reflexivity.
Defined.

(** C2 as stated fails in Sam's store for a body without the required
    fields: it is refused with a validation error, answered with 400 and
    not with 200. *)
Lemma update_account_counterexample :
  present 1 sam_store ∧
  get_json (json_request not_enough) = Some not_enough ∧
  (update_account "2024-01-01" 1 (json_request not_enough) sam_store).2
  = inl (DataValidationError (Some "email")) ∧
  http_status (update_account "2024-01-01" 1 (json_request not_enough) sam_store)
  = 400 ∧
  http_status (update_account "2024-01-01" 1 (json_request not_enough) sam_store)
  ≠ status.HTTP_200_OK.
Proof.
  split; [exact sam_present|]. repeat (split; [reflexivity|]). discriminate.
Qed.

(** C2, amended.  For every identifier present in the store and every
    request body that passes validation, [update_account] answers 200 with
    the serialized account of that identifier whose name, email, address
    and phone_number are those of the body, and a subsequent
    [read_account] of the identifier answers with the same account. *)
Theorem update_account_valid_body
    (today : string) (i : Z) (req : Request) (d : Dict) (s : Store) :
  present i s →
  get_json req = Some d →
  valid_payload d = true →
  ∃ b,
    (update_account today i req s).2
    = inr (Some (make_response (jsonify b) status.HTTP_200_OK [])) ∧
    b !! "id" = Some (JNum i) ∧
    b !! "name" = d !! "name" ∧
    b !! "email" = d !! "email" ∧
    b !! "address" = d !! "address" ∧
    b !! "phone_number" = Some (payload_phone d) ∧
    b !! "date_joined" = Some (JStr (payload_date today d)) ∧
    read_account i (update_account today i req s).1
    = ((update_account today i req s).1,
       inr (Some (make_response (jsonify b) status.HTTP_200_OK []))).
Proof.
  intros [a Ha]%find_present Hd Hvalid.
  destruct (assigned_fields today d a Hvalid)
    as (Hid & Hn & He & Had & Hp & Hdate).
  pose proof (find_Some_elem _ _ _ Ha) as [_ Hi].
  exists (Account.serialize (assigned today d a)).
  rewrite (update_account_found _ _ _ _ _ Ha), Hd.
  rewrite (deserialize_valid _ _ _ Hvalid). simpl.
  rewrite serialize_id, serialize_name, serialize_email, serialize_address,
    serialize_phone_number, serialize_date_joined.
  rewrite Hn, He, Had, Hdate, Hid, Hi. simpl. fold (payload_phone d).
  repeat (split; [done|]).
  run_handler. rewrite (find_write_row_same i a); [done | done |].
  congruence.
Qed.

Lemma update_account_valid_body_witness :
  ∃ b,
    (update_account "2024-01-01" 1 (json_request bob) sam_store).2
    = inr (Some (make_response (jsonify b) status.HTTP_200_OK [])) ∧
    b !! "id" = Some (JNum 1) ∧
    b !! "name" = bob !! "name" ∧
    b !! "email" = bob !! "email" ∧
    b !! "address" = bob !! "address" ∧
    b !! "phone_number" = Some (payload_phone bob) ∧
    b !! "date_joined" = Some (JStr (payload_date "2024-01-01" bob)) ∧
    read_account 1 (update_account "2024-01-01" 1 (json_request bob) sam_store).1
    = ((update_account "2024-01-01" 1 (json_request bob) sam_store).1,
       inr (Some (make_response (jsonify b) status.HTTP_200_OK []))).
Proof.
  apply (update_account_valid_body "2024-01-01" 1 (json_request bob) bob
           sam_store).
  - exact sam_present.
  - reflexivity.
  - reflexivity.
Defined.


(** * Further properties of the handlers *)

(** ** More on looking rows up *)

Section LookupMore.

Implicit Types (i j : Z) (a : Account.t) (l : list Account.t).

(** A row found in a table is found in every extension of it. *)
Lemma find_app_found i a l l' :
  List.find (Account.has_id i) l = Some a →
  List.find (Account.has_id i) (l ++ l') = Some a.
Proof.
  induction l as [|b l IH]; simpl; [done|].
  by destruct (Account.has_id i b).
Qed.

(** Removing the rows of one identifier does not disturb the search for
    another. *)
Lemma find_filter_other i j l :
  i ≠ j →
  List.find (Account.has_id j)
    (List.filter (λ r, negb (Account.has_id i r)) l)
  = List.find (Account.has_id j) l.
Proof.
  intros Hne. induction l as [|b l IH]; simpl; [done|].
  destruct (Account.has_id i b) eqn:Hi; simpl.
  - destruct (Account.has_id j b) eqn:Hj; [|done].
    apply has_id_true in Hi, Hj. congruence.
  - by destruct (Account.has_id j b).
Qed.

(** With distinct identifiers, the row found is the row that is there. *)
Lemma find_unique i a l :
  NoDup (Account.id <$> l) → a ∈ l → Account.id a = Some i →
  List.find (Account.has_id i) l = Some a.
Proof.
  intros Hnd Ha Hid. induction l as [|b l IH]; simpl.
  - by apply elem_of_nil in Ha.
  - simpl in Hnd. apply NoDup_cons in Hnd as [Hb Hnd].
    apply elem_of_cons in Ha as [<-|Ha].
    + by rewrite (proj2 (has_id_true i a) Hid).
    + destruct (Account.has_id i b) eqn:Hbi; [|by apply IH].
      apply has_id_true in Hbi. exfalso. apply Hb.
      apply list_elem_of_fmap. exists a. split; [congruence | done].
Qed.

(** With distinct identifiers, one identifier has one row to remove. *)
Lemma filter_removes_one i l :
  NoDup (Account.id <$> l) →
  (∃ a, a ∈ l ∧ Account.id a = Some i) →
  S (length (List.filter (λ r, negb (Account.has_id i r)) l)) = length l.
Proof.
  intros Hnd (a & Ha & Hid). induction l as [|b l IH]; simpl.
  - by apply elem_of_nil in Ha.
  - simpl in Hnd. apply NoDup_cons in Hnd as [Hb Hnd].
    destruct (Account.has_id i b) eqn:Hbi; simpl.
    + do 2 f_equal. apply forallb_filter_id, forallb_forall.
      intros c Hc%list_elem_of_In. apply negb_true_iff.
      destruct (Account.has_id i c) eqn:Hci; [|done].
      apply has_id_true in Hbi, Hci. exfalso. apply Hb.
      apply list_elem_of_fmap. exists c. split; [congruence | done].
    + f_equal. apply IH; [done|].
      apply elem_of_cons in Ha as [->|Ha]; [|done].
      apply has_id_true in Hid. congruence.
Qed.

End LookupMore.

Lemma read_account_result (i : Z) (s : Store) :
  (read_account i s).2
  = match List.find (Account.has_id i) (Account.rows s) with
    | Some a => inr (Some (make_response (jsonify (Account.serialize a))
                             status.HTTP_200_OK []))
    | None => inl (HTTPException status.HTTP_404_NOT_FOUND None)
    end.
Proof. run_handler. by destruct (List.find _ _). Qed.

(** ** Updating: the order of the checks *)

(** X1.  [update_account] aborts with 404 exactly when no account of the
    identifier is in the store.  The lookup comes first: for an unknown
    identifier the body is never examined, so the answer is 404 and not a
    validation error even without a body, and the store is as before. *)
Theorem update_account_not_found_iff
    (today : string) (i : Z) (req : Request) (s : Store) :
  (¬ present i s ↔
   update_account today i req s
   = (s, inl (HTTPException status.HTTP_404_NOT_FOUND None))) ∧
  (¬ present i s ↔ http_status (update_account today i req s) = 404).
Proof.
  rewrite <- find_absent. unfold http_status.
  destruct (List.find (Account.has_id i) (Account.rows s)) as [a|] eqn:Hf.
  - rewrite (update_account_found _ _ _ _ _ Hf). simpl.
    destruct (Account.deserialize today (get_json req) a).2 as [e|[]] eqn:He.
    + destruct (deserialize_raises _ _ _ _ He) as [f ->]. done.
    + done.
  - run_handler. by rewrite Hf.
Qed.

(** ** Deleting: what is removed and what stays *)

(** X3.  Deleting one identifier leaves every other identifier as it was:
    present if and only if it was present, and read with the same
    answer. *)
Theorem delete_account_keeps_others (i j : Z) (s : Store) :
  i ≠ j →
  (present j (delete_account i s).1 ↔ present j s) ∧
  (read_account j (delete_account i s).1).2 = (read_account j s).2.
Proof.
  intros Hne. rewrite <- !find_present, !read_account_result.
  destruct (delete_account_rows i s) as [-> _].
  by rewrite find_filter_other.
Qed.

Lemma delete_account_keeps_others_witness :
  (present 2 (delete_account 1 sam_bob_store).1 ↔ present 2 sam_bob_store) ∧
  (read_account 2 (delete_account 1 sam_bob_store).1).2
  = (read_account 2 sam_bob_store).2.
Proof.
  apply (delete_account_keeps_others 1 2 sam_bob_store). lia.
Defined.

(** X4.  After [delete_account] no account of the identifier is in the
    store, whether there was one or not, and deleting it again changes
    nothing more. *)
Theorem delete_account_idempotent (i : Z) (s : Store) :
  ¬ present i (delete_account i s).1 ∧
  (delete_account i (delete_account i s).1).1 = (delete_account i s).1.
Proof.
  assert (¬ present i (delete_account i s).1) as Habs.
  { intros (a & Ha & Hid). destruct (delete_account_rows i s) as [Hrows _].
    rewrite Hrows in Ha. apply list_elem_of_In, filter_In in Ha as [_ Ha].
    apply negb_true_iff in Ha. apply has_id_true in Hid. congruence. }
  split; [done|]. by rewrite (delete_account_absent i _ Habs).
Qed.

(** X5.  In a store with distinct identifiers, deleting an identifier that
    is present removes exactly one row, so the list of accounts has one
    entry less. *)
Theorem delete_account_removes_one (i : Z) (s : Store) :
  wf_store s → present i s →
  S (length (Account.rows (delete_account i s).1)) = length (Account.rows s) ∧
  ∃ before after,
    body_of (list_accounts s) = Some (jsonify_list before) ∧
    body_of (list_accounts (delete_account i s).1) = Some (jsonify_list after) ∧
    S (length after) = length before.
Proof.
  intros [_ Hnd] Hp.
  assert (S (length (Account.rows (delete_account i s).1))
          = length (Account.rows s)) as Hlen.
  { destruct (delete_account_rows i s) as [-> _]. by apply filter_removes_one. }
  split; [done|]. rewrite !list_accounts_all.
  do 2 eexists. split; [reflexivity|]. split; [reflexivity|].
  by rewrite !length_fmap.
Qed.

Lemma delete_account_removes_one_witness :
  S (length (Account.rows (delete_account 1 sam_bob_store).1))
  = length (Account.rows sam_bob_store).
Proof.
  apply (delete_account_removes_one 1 sam_bob_store).
  - apply (bool_decide_unpack (wf_store sam_bob_store)). vm_compute. exact I.
  - exists sam_row. split; [left | reflexivity].
Defined.

(** ** Creating: what is added and what stays *)

(** X7.  Whatever [create_accounts] answers, every account that was in the
    store is read afterwards with the same answer as before, and the rows
    that were there come first, in their order. *)
Theorem create_accounts_keeps_existing
    (today : string) (req : Request) (j : Z) (s : Store) :
  present j s →
  (read_account j (create_accounts today req s).1).2 = (read_account j s).2 ∧
  Account.rows s `prefix_of` Account.rows (create_accounts today req s).1.
Proof.
  intros [a Ha]%find_present. rewrite !read_account_result.
  destruct (create_accounts_outcome today req s)
    as [(e & -> & _)|(_ & a0 & _ & _ & ->)]; [done|].
  simpl. rewrite (find_app_found _ _ _ _ Ha), Ha.
  split; [done | by apply prefix_app_r].
Qed.

Lemma create_accounts_keeps_existing_witness :
  (read_account 1
     (create_accounts "2024-01-02" (json_request bob) sam_store).1).2
  = (read_account 1 sam_store).2 ∧
  Account.rows sam_store
    `prefix_of`
    Account.rows (create_accounts "2024-01-02" (json_request bob) sam_store).1.
Proof.
  apply (create_accounts_keeps_existing "2024-01-02" (json_request bob)
           1 sam_store).
  exact sam_present.
Defined.

(** X8.  After an accepted creation the list of accounts is the list of
    before followed by one entry, and that entry is the body of the 201
    answer. *)
Theorem list_accounts_after_create
    (today : string) (req : Request) (s : Store) :
  acceptable req = true →
  ∃ created entries,
    body_of (create_accounts today req s) = Some (jsonify created) ∧
    body_of (list_accounts s) = Some (jsonify_list entries) ∧
    body_of (list_accounts (create_accounts today req s).1)
    = Some (jsonify_list (entries ++ [created])%list).
Proof.
  intros Hacc.
  destruct (create_accounts_accepted today req s Hacc) as (d & _ & _ & ->).
  rewrite !list_accounts_all. simpl.
  do 2 eexists. split; [reflexivity|]. split; [reflexivity|].
  unfold body_of. simpl. by rewrite fmap_app.
Qed.

Lemma list_accounts_after_create_witness :
  ∃ created entries,
    body_of (create_accounts "2024-01-02" (json_request bob) sam_store)
    = Some (jsonify created) ∧
    body_of (list_accounts sam_store) = Some (jsonify_list entries) ∧
    body_of (list_accounts
               (create_accounts "2024-01-02" (json_request bob) sam_store).1)
    = Some (jsonify_list (entries ++ [created])%list).
Proof.
  apply (list_accounts_after_create "2024-01-02" (json_request bob) sam_store).
  reflexivity.
Defined.

(** ** Listing and reading agree *)

(** X9.  In a store with distinct identifiers every row has an identifier,
    and reading that identifier answers 200 with the very entry the row
    has in the list of accounts. *)
Theorem list_entries_are_readable (a : Account.t) (s : Store) :
  wf_store s → a ∈ Account.rows s →
  ∃ i, Account.id a = Some i ∧
       Account.serialize a ∈ Account.serialize <$> Account.rows s ∧
       body_of (list_accounts s)
       = Some (jsonify_list (Account.serialize <$> Account.rows s)) ∧
       read_account i s
       = (s, inr (Some (make_response (jsonify (Account.serialize a))
                          status.HTTP_200_OK []))).
Proof.
  intros [Hall Hnd] Ha. rewrite Forall_forall in Hall.
  specialize (Hall a Ha). unfold issued in Hall.
  destruct (Account.id a) as [i|] eqn:Hid; [|done].
  exists i. split; [done|]. split; [by apply list_elem_of_fmap_2|].
  split; [by rewrite list_accounts_all|].
  run_handler. by rewrite (find_unique i a _ Hnd Ha Hid).
Qed.

Lemma list_entries_are_readable_witness :
  ∃ i, Account.id bob_row = Some i ∧
       Account.serialize bob_row
         ∈ Account.serialize <$> Account.rows sam_bob_store ∧
       body_of (list_accounts sam_bob_store)
       = Some (jsonify_list (Account.serialize <$> Account.rows sam_bob_store)) ∧
       read_account i sam_bob_store
       = (sam_bob_store,
          inr (Some (make_response (jsonify (Account.serialize bob_row))
                       status.HTTP_200_OK []))).
Proof.
  apply (list_entries_are_readable bob_row sam_bob_store).
  - apply (bool_decide_unpack (wf_store sam_bob_store)). vm_compute. exact I.
  - right. left.
Defined.

(** ** The content-type check for any media type *)

(** X14.  For every expected media type, [check_content_type] lets the
    request pass exactly when the Content-Type header equals it and is
    not empty; in every other case it aborts with 415 and a description
    that names the expected type.  It never changes the store. *)
Theorem check_content_type_any_media_type
    (req : Request) (media_type : string) (s : Store) :
  (check_content_type req media_type s = (s, inr ()) ↔
   headers req !! "Content-Type" = Some media_type ∧ media_type ≠ "") ∧
  (check_content_type req media_type s = (s, inr ()) ∨
   check_content_type req media_type s
   = (s, inl (HTTPException status.HTTP_415_UNSUPPORTED_MEDIA_TYPE
                (Some ("Content-Type must be " +:+ media_type))))).
Proof.
  unfold check_content_type, truthy.
  destruct (headers req !! "Content-Type") as [ct|] eqn:Hct; simpl.
  - destruct (decide (ct = "")) as [->|Hne].
    + rewrite bool_decide_eq_true_2 by done. simpl.
      split; [|by right]. split; [done|]. intros [[= <-] ?]. done.
    + rewrite (bool_decide_eq_false_2 (ct = "")) by done. simpl.
      destruct (decide (Some ct = Some media_type)) as [Heq|Heq].
      * rewrite bool_decide_eq_true_2 by done. injection Heq as <-.
        split; [|by left]. done.
      * rewrite bool_decide_eq_false_2 by done.
        split; [|by right]. split; [done|]. by intros [? _].
  - split; [|by right]. split; [done|]. by intros [? _].
Qed.

(** ** The GET routes *)

(** X15.  No GET route changes the store, and each answers 200, except
    for the read of an identifier that is not in the store, which is
    answered with 404. *)
Theorem get_routes_are_safe (g : Get) (s : Store) :
  (handle_get g s).1 = s ∧
  (http_status (handle_get g s) = 200 ∨
   ∃ i, g = GetAccount i ∧ ¬ present i s ∧
        http_status (handle_get g s) = 404).
Proof.
  destruct g as [| | |i]; simpl.
  - split; [done | by left].
  - split; [done | by left].
  - rewrite list_accounts_all. split; [done | by left].
  - split; [apply read_account_store|].
    unfold http_status. rewrite read_account_result.
    destruct (List.find _ _) as [a|] eqn:Hf; simpl; [by left|].
    right. exists i. by rewrite <- find_absent.
Qed.
